(** * Nagios plugins: [check_okcomputer_health_page.py] and [sendgraph.py]

    A shallow embedding of the two scripts of the repository and the
    properties their specification states about them.

    - [Py] holds the few Python values and built-ins both scripts rely on.
    - [HealthPage] embeds [check_okcomputer_health_page.py]: [parse_args],
      the [Check] class and the body of [__main__].
    - [SendGraph] embeds [sendgraph.py]: [get_highlight_color],
      [generate_email_body], [get_graph], [send_graph_email] and [main].
    - [StringFacts] holds the few facts about strings the proofs use.
    - [HealthPageProps] and [SendGraphProps] state and prove the properties
      of the specification; [HealthPageMore] and [SendGraphMore] add
      properties read off the code.

    Library calls whose code is not part of the repository ([getopt.getopt],
    [pycurl], [json.loads], [requests.get], [smtplib]) appear as inputs:
    what they return or raise is a parameter of the program that calls them.
    The scripts are Python 2.  A string is kept as the bytes of its UTF-8
    encoding: it is ASCII when every byte is below 128, and [json.loads]
    returns a string that is not ASCII as a [unicode] object. *)

From Stdlib Require Import ZArith List Bool String Ascii DecimalString Lia.
From Stdlib Require Import Floats.SpecFloat.
Import ListNotations.

Local Open Scope string_scope.
Local Open Scope Z_scope.

Set Warnings "-register-all".

(* ================================================================== *)
(** * Python values and built-ins                                       *)
(* ================================================================== *)

Module Py.

(** What [json.loads] can return: [None], a bool, an int (or long), a
    float, a string ([str] or [unicode]), a list, or a dict.  A dict is
    kept as the list of its items in the order [items()] yields them; its
    keys are pairwise distinct. *)
Inductive pyval : Type :=
| PNone
| PBool (b : bool)
| PInt (z : Z)
| PFloat (f : spec_float)
| PStr (s : string)
| PList (l : list pyval)
| PDict (d : list (string * pyval)).

(** The exceptions the two scripts can raise. *)
Inductive exn : Type :=
| AttributeError
| KeyError
| TypeError
| ValueError
| RequestException
| UnicodeEncodeError.

(** Is every character of the string an ASCII character? *)
Fixpoint is_ascii (s : string) : bool :=
  match s with
  | EmptyString => true
  | String c rest => (N_of_ascii c <? 128)%N && is_ascii rest
  end.

(** The double quote character, as a string. *)
Definition dq : string := String (ascii_of_nat 34) EmptyString.

(** The line feed character, as a string. *)
Definition nl : string := String (ascii_of_nat 10) EmptyString.

(** [str(n)] and ["%d" % n] for an int. *)
Definition str_of_int (z : Z) : string := NilZero.string_of_int (Z.to_int z).

(** [d[key]] on the items of a dict: [None] when the key is absent. *)
Fixpoint dict_get (key : string) (d : list (string * pyval)) : option pyval :=
  match d with
  | [] => None
  | (k, v) :: rest => if String.eqb k key then Some v else dict_get key rest
  end.

(** The floats [0.0] and [1.0] (binary64, in canonical form). *)
Definition float_zero : spec_float := S754_zero false.
Definition float_one : spec_float := S754_finite false 4503599627370496 (-52).

(** [v == b] for a bool [b].  A bool is an int in Python, so [0] and [0.0]
    compare equal to [False], [1] and [1.0] to [True]; [None], strings,
    lists and dicts compare equal to neither. *)
Definition eq_bool (v : pyval) (b : bool) : bool :=
  match v with
  | PBool b' => Bool.eqb b' b
  | PInt z => z =? (if b then 1 else 0)
  | PFloat f => SFeqb f (if b then float_one else float_zero)
  | _ => false
  end.

(** [opt in (a, b)] for strings. *)
Definition str_in (s : string) (names : list string) : bool :=
  existsb (String.eqb s) names.

(** ["{x}".format(x=v)] and ["%s" % v] for a value that is a string or
    [None]. *)
Definition fmt (v : option string) : string :=
  match v with
  | Some s => s
  | None => "None"
  end.

(** [s.split(sep)] for a separator of one character. *)
Fixpoint split (sep : ascii) (s : string) : list string :=
  match s with
  | EmptyString => [EmptyString]
  | String c rest =>
      if Ascii.eqb c sep then EmptyString :: split sep rest
      else match split sep rest with
           | piece :: pieces => String c piece :: pieces
           | [] => [String c EmptyString]
           end
  end.

(** [sep.join(l)]. *)
Definition join (sep : string) (l : list string) : string := String.concat sep l.

End Py.

(* ================================================================== *)
(** * check_okcomputer_health_page.py                                   *)
(* ================================================================== *)

Module HealthPage.
Import Py.

(** How a run of the script ends: [sys.exit(code)] after the lines it
    printed, or an exception nobody catches (the interpreter then prints a
    traceback on stderr and the process ends with status 1). *)
Inductive outcome : Type :=
| Exit (code : Z) (stdout : list string)
| Uncaught (e : exn) (stdout : list string).

(** A step of the script either yields a value or ends the run. *)
Inductive res (A : Type) : Type :=
| Ret (a : A)
| Halt (o : outcome).
Arguments Ret {A} a.
Arguments Halt {A} o.

Definition bind {A B : Type} (m : res A) (k : A -> res B) : res B :=
  match m with
  | Ret a => k a
  | Halt o => Halt o
  end.

Notation "x <- m ;; k" := (bind m (fun x => k))
  (at level 61, m at next level, right associativity).

(** The exit code of a run that ended in [sys.exit]. *)
Definition exit_code (o : outcome) : option Z :=
  match o with
  | Exit code _ => Some code
  | Uncaught _ _ => None
  end.

(** The status the process ends with: the argument of [sys.exit], or 1
    after an uncaught exception. *)
Definition process_status (o : outcome) : Z :=
  match o with
  | Exit code _ => code
  | Uncaught _ _ => 1
  end.

(** The lines a run printed. *)
Definition printed (o : outcome) : list string :=
  match o with
  | Exit _ out => out
  | Uncaught _ out => out
  end.

(** [usage()]: five [print] statements (the first prints a tuple), then
    [sys.exit(3)]. *)
Definition usage_lines : list string :=
  [ "('USAGE: check_okl_health_page -H <hostname> [-u <URL>] [-p <port>] ', '[-S] [-e <check_to_exclude>]')";
    "-H hostname (default: imp.newokl.com)";
    "-p port (default: 80)";
    "-S check via ssl";
    "-u URL (default: /health_checks)" ++ nl ++ nl ].

Definition usage {A : Type} : res A := Halt (Exit 3 usage_lines).

(** The dict [parse_args] returns. *)
Record args : Type := mkArgs {
  hostname : string;
  port : Z;
  ssl : bool;
  url : string;
  excludeList : list string
}.

Definition return_dict0 : args :=
  {| hostname := "localhost";
     port := 80;
     ssl := false;
     url := "/health_checks";
     excludeList := ["stub"] |}.

(** What [getopt.getopt(sys.argv[1:], "hH:p:Su:e:")] does: raise
    [GetoptError], or return the (option, argument) pairs. *)
Inductive getopt_result : Type :=
| GetoptError
| GetoptOk (opts : list (string * string)).

(** What [c.perform()] and [c.getinfo(c.HTTP_CODE)] do for a URL: raise
    [pycurl.error], or leave a status code and the body in the buffer. *)
Inductive curl_result : Type :=
| CurlError
| CurlDone (http_code : Z) (body : string).

(** The [Check] class: three attributes set by the constructor. *)
Record Check : Type := mkCheck {
  name : string;
  message : pyval;
  success : pyval
}.

Section Program.

(** [json.loads]: [None] stands for [ValueError]. *)
Variable json_loads : string -> option pyval.
(** What ["%s" % v] gives for a float, a list or a dict. *)
Variable py_repr : pyval -> string.
(** [int(s)] on a string: [None] stands for [ValueError]. *)
Variable py_int : string -> option Z.

(** One turn of the [for opt, arg in opts] loop of [parse_args]. *)
Definition parse_opt (return_dict : args) (opt arg : string) : res args :=
  if str_in opt ["-h"; "--help"] then usage
  else if str_in opt ["-H"; "--hostname"] then
    Ret {| hostname := arg; port := port return_dict; ssl := ssl return_dict;
           url := url return_dict; excludeList := excludeList return_dict |}
  else if str_in opt ["-p"; "--port"] then
    match py_int arg with
    | Some n =>
        Ret {| hostname := hostname return_dict; port := n;
               ssl := ssl return_dict; url := url return_dict;
               excludeList := excludeList return_dict |}
    | None => Halt (Uncaught ValueError [])
    end
  else if str_in opt ["-S"; "--ssl"] then
    Ret {| hostname := hostname return_dict; port := port return_dict;
           ssl := true; url := url return_dict;
           excludeList := excludeList return_dict |}
  else if str_in opt ["-u"; "--url"] then
    Ret {| hostname := hostname return_dict; port := port return_dict;
           ssl := ssl return_dict; url := arg;
           excludeList := excludeList return_dict |}
  else if str_in opt ["-e"; "--exclude"] then
    Ret {| hostname := hostname return_dict; port := port return_dict;
           ssl := ssl return_dict; url := url return_dict;
           excludeList := excludeList return_dict ++ [arg] |}
  else Ret return_dict.

Fixpoint parse_opts (opts : list (string * string)) (return_dict : args)
  : res args :=
  match opts with
  | [] => Ret return_dict
  | (opt, arg) :: rest =>
      d <- parse_opt return_dict opt arg ;;
      parse_opts rest d
  end.

Definition parse_args (argv : getopt_result) : res args :=
  match argv with
  | GetoptError => usage
  | GetoptOk opts => parse_opts opts return_dict0
  end.

(** ["%s" % v]. *)
Definition py_str (v : pyval) : string :=
  match v with
  | PNone => "None"
  | PBool true => "True"
  | PBool false => "False"
  | PInt z => str_of_int z
  | PStr s => s
  | PFloat _ | PList _ | PDict _ => py_repr v
  end.

(** [Check.__str__].  The text is a [unicode] object when the name or
    the message is one. *)
Definition Check_str (c : Check) : string :=
  name c ++ " : {message: " ++ py_str (message c)
         ++ ", success: " ++ py_str (success c) ++ "}".

(** Does [Check.__str__] return ASCII text?  The name and a message that
    is a string are copied as they are; everything else is rendered in
    ASCII. *)
Definition ascii_text (c : Check) : bool :=
  is_ascii (name c)
  && match message c with
     | PStr m => is_ascii m
     | _ => true
     end.

(** [str(check)]: the text of [Check.__str__], encoded with the ascii
    codec when it is a [unicode] object, which raises
    [UnicodeEncodeError] on a character that is not ASCII. *)
Definition str_check (c : Check) : res string :=
  if ascii_text c then Ret (Check_str c)
  else Halt (Uncaught UnicodeEncodeError []).

(** [jsonResponse.items()]: only a dict has items. *)
Definition items (jsonResponse : pyval) : res (list (string * pyval)) :=
  match jsonResponse with
  | PDict d => Ret d
  | _ => Halt (Uncaught AttributeError [])
  end.

(** [valueDict[key]]: [KeyError] on a dict without the key, [TypeError] on
    a value that is not a dict. *)
Definition getitem (valueDict : pyval) (key : string) : res pyval :=
  match valueDict with
  | PDict d =>
      match dict_get key d with
      | Some v => Ret v
      | None => Halt (Uncaught KeyError [])
      end
  | _ => Halt (Uncaught TypeError [])
  end.

(** The loop [for checkName, valueDict in jsonResponse.items()], with
    [badList] as it stands when the loop reaches [its]. *)
Fixpoint find_bad (its : list (string * pyval)) (badList : list Check)
  : res (list Check) :=
  match its with
  | [] => Ret badList
  | (checkName, valueDict) :: rest =>
      s <- getitem valueDict "success" ;;
      if eq_bool s false then
        m <- getitem valueDict "message" ;;
        s' <- getitem valueDict "success" ;;
        find_bad rest (badList ++ [mkCheck checkName m s'])
      else find_bad rest badList
  end.

(** The loop [for check in badList: msg += ", " + str(check)], with [msg]
    as it stands when the loop reaches [badList]. *)
Fixpoint append_checks (badList : list Check) (msg : string) : res string :=
  match badList with
  | [] => Ret msg
  | check :: rest =>
      text <- str_check check ;;
      append_checks rest (msg ++ ", " ++ text)
  end.

(** The message of the CRITICAL branch. *)
Definition critical_msg (badList : list Check) : res string :=
  append_checks badList "CRITICAL: The following checks are failing".

(** The URL polled. *)
Definition build_url (a : args) : string :=
  (if ssl a then "https://" else "http://")
    ++ hostname a ++ ":" ++ str_of_int (port a) ++ url a.

(** The block under [if __name__ == '__main__']. *)
Definition main (argv : getopt_result) (perform : string -> curl_result)
  : outcome :=
  let run :=
    a <- parse_args argv ;;
    let url := build_url a in
    match perform url with
    | CurlError => Halt (Exit 3 ["UNKOWN: problem pycurling " ++ url])
    | CurlDone http_code body =>
        if negb (http_code =? 200) then
          Halt (Exit 3 ["UNKNOWN: " ++ url ++ " returned a non 200 status code"])
        else
          match json_loads body with
          | None =>
              Halt (Exit 3 ["UNKNOWN: " ++ url
                              ++ " returned a non-json formatted string: "
                              ++ body])
          | Some jsonResponse =>
              its <- items jsonResponse ;;
              badList <- find_bad its [] ;;
              match badList with
              | [] => Halt (Exit 0 ["OK: All checks pass"])
              | _ =>
                  msg <- critical_msg badList ;;
                  Halt (Exit 2 [msg])
              end
          end
    end
  in
  match run with
  | Ret o => o
  | Halt o => o
  end.

End Program.

End HealthPage.

(* ================================================================== *)
(** * sendgraph.py                                                      *)
(* ================================================================== *)

Module SendGraph.
Import Py.

(** The module-level globals, each read once with [os.getenv(..., None)]. *)
Record environ : Type := mkEnviron {
  graphite_metric : option string;
  warn_threshold : option string;
  crit_threshold : option string;
  contact_email : option string;
  notification_type : option string;
  service_state : option string;
  host_alias : option string;
  host_address : option string;
  service_description : option string;
  date_time : option string;
  action_url : option string;
  service_output : option string;
  service_duration : option string
}.

(** The options [get_options] returns ([optparse] leaves an option that
    has no default and is not given at [None]). *)
Record Options : Type := mkOptions {
  base_url : option string;
  interval : option string;
  width : option string;
  from_email : option string
}.

(** The options of a command line without flags. *)
Definition default_options : Options :=
  {| base_url := None; interval := Some "6hours"; width := Some "800";
     from_email := None |}.

(** A header of a MIME part: name, value and parameters. *)
Record header : Type := mkHeader {
  h_name : string;
  h_value : string;
  h_params : list (string * string)
}.

(** The parts attached to the multipart message. *)
Inductive mime_part : Type :=
| MIMEText (text : string) (subtype : string)
| MIMEImage (imagedata : string) (subtype : string) (headers : list header).

(** The [MIMEMultipart] message with the three headers the script sets. *)
Record message : Type := mkMessage {
  multipart_subtype : string;
  parts : list mime_part;
  msg_to : string;
  msg_from : option string;
  msg_subject : string
}.

(** What [requests.get(url)] does: raise, or return a response. *)
Inductive http_result : Type :=
| GetRaises
| GetResponse (status_code : Z) (content : string).

(** What the script does to the outside world, in order:
    [requests.get(url)], [s.connect()],
    [s.sendmail(sender, receivers, msg.as_string())], [s.close()] and
    [logging.error(text)].  An event records that the call is made; the
    answer to the call is the world's. *)
Inductive event : Type :=
| HttpGet (url : string)
| SmtpConnect
| SmtpSend (sender : option string) (receivers : list string) (msg : message)
| SmtpClose
| LogError (text : string).

(** The outside world: the graph server, and the mail transport.  Each
    of the three calls of the transport answers [None] when it returns,
    and the text of the exception when it raises. *)
Record world : Type := mkWorld {
  requests_get : string -> http_result;
  smtp_connect : option string;
  smtp_sendmail : option string -> list string -> message -> option string;
  smtp_close : option string
}.

(** An effectful step: the events it caused, and its value or the
    exception it raised. *)
Inductive result (A : Type) : Type :=
| Ok (a : A)
| Raise (e : exn).
Arguments Ok {A} a.
Arguments Raise {A} e.

Definition M (A : Type) : Type := (list event * result A)%type.

Definition ret {A : Type} (a : A) : M A := ([], Ok a).

Definition raise {A : Type} (e : exn) : M A := ([], Raise e).

Definition emit (ev : event) : M unit := ([ev], Ok tt).

Definition bind {A B : Type} (m : M A) (k : A -> M B) : M B :=
  match m with
  | (t, Ok a) => let (t', r) := k a in ((t ++ t')%list, r)
  | (t, Raise e) => (t, Raise e)
  end.

Notation "x <- m ;; k" := (bind m (fun x => k))
  (at level 61, m at next level, right associativity).
Notation "m ;;; k" := (bind m (fun _ => k))
  (at level 61, right associativity).

(** The events of a run. *)
Definition trace {A : Type} (m : M A) : list event := fst m.

(** Was a message handed to the mail transport? *)
Definition is_send (ev : event) : bool :=
  match ev with
  | SmtpSend _ _ _ => true
  | _ => false
  end.

(** Was a request sent to the graph server? *)
Definition is_get (ev : event) : bool :=
  match ev with
  | HttpGet _ => true
  | _ => false
  end.

(** The messages handed to the mail transport during a run: those
    [s.sendmail] is called with. *)
Definition sent {A : Type} (m : M A) : list message :=
  flat_map (fun ev => match ev with
                      | SmtpSend _ _ msg => [msg]
                      | _ => []
                      end) (trace m).

(** The URLs requested during a run. *)
Definition requested {A : Type} (m : M A) : list string :=
  flat_map (fun ev => match ev with
                      | HttpGet u => [u]
                      | _ => []
                      end) (trace m).

(** Python's [==] between a value that is a string or [None] and a string
    literal. *)
Definition eq_lit (v : option string) (lit : string) : bool :=
  match v with
  | Some s => String.eqb s lit
  | None => false
  end.

Definition get_highlight_color (notification_type service_state : option string)
  : string :=
  let color := "fuchsia" in
  if eq_lit notification_type "ACKNOWLEDGEMENT" then "cyan"
  else if eq_lit notification_type "CUSTOM" then "greenyellow"
  else if eq_lit service_state "CRITICAL" then "lightcoral"
  else if eq_lit service_state "WARNING" then "yellow"
  else if eq_lit service_state "OK" then "springgreen"
  else if eq_lit service_state "UNKNOWN" then "grey"
  else color.

Definition generate_email_body (env : environ) (bgcolor : string) : string :=
  fmt (date_time env) ++ "<BR><BR>"
  ++ "<TABLE border='0'>"
  ++ "<TR bgcolor='" ++ bgcolor ++ "'><TD><B>Service State:</B></TD>"
  ++ "<TD><B>" ++ fmt (service_state env) ++ "</B></TD></TR>"
  ++ "<TR><TD>Notification Type:</TD><TD>" ++ fmt (notification_type env)
  ++ "</TD></TR>"
  ++ "<TR><TD>Service:</TD><TD>" ++ fmt (service_description env)
  ++ "</TD></TR>"
  ++ "<TR><TD>Host:</TD><TD>" ++ fmt (host_alias env) ++ "</TD></TR>"
  ++ "<TR><TD>Address:</TD><TD>" ++ fmt (host_address env) ++ "</TD></TR>"
  ++ "<TR><TD>Runbook:</TD><TD>"
  ++ "<A HREF='" ++ fmt (action_url env) ++ "'>" ++ fmt (action_url env)
  ++ "</A></TD></TR>"
  ++ "<TR><TD>Problem Duration:</TD><TD>" ++ fmt (service_duration env)
  ++ "</TD></TR>"
  ++ "<TR><TD></TD><TD></TD></TR>"
  ++ "<TR><TD>Check Output:</TD><TD>" ++ fmt (service_output env)
  ++ "</TD></TR>"
  ++ "</TABLE>".

(** The overlay [get_graph] appends for a warning threshold. *)
Definition warn_target (warn : string) : string :=
  "&target=threshold(" ++ warn ++ ",'warn = " ++ warn ++ "','yellow')".

(** The overlay [get_graph] appends for a critical threshold. *)
Definition crit_target (crit : string) : string :=
  "&target=threshold(" ++ crit ++ ", 'crit = " ++ crit ++ "','red')".

(** The value of [graph_url] when [get_graph] requests it. *)
Definition graph_url (env : environ) (options : Options) (metric : string)
  : string :=
  let graph_url :=
    fmt (base_url options) ++ "/render?lineMode=connected&from=-"
    ++ fmt (interval options) ++ "&"
    ++ "width=" ++ fmt (width options) ++ "&target=" ++ metric
    ++ "&bgcolor=FFFFFF&fgcolor=000000" in
  let graph_url :=
    match warn_threshold env with
    | Some warn => graph_url ++ warn_target warn
    | None => graph_url
    end in
  match crit_threshold env with
  | Some crit => graph_url ++ crit_target crit
  | None => graph_url
  end.

Section Program.

Variable w : world.
Variable env : environ.

Definition get_graph (options : Options) : M (option string) :=
  match graphite_metric env with
  | Some metric =>
      let graph_url := graph_url env options metric in
      emit (HttpGet graph_url) ;;;
      match requests_get w graph_url with
      | GetRaises => raise RequestException
      | GetResponse _ content => ret (Some content)
      end
  | None => ret None
  end.

(** The line appended to the body when there is a graph. *)
Definition img_tag : string :=
  "<BR><BR><img src=" ++ dq ++ "cid:graph" ++ dq ++ ">".

(** The image part: [MIMEImage(graph, 'png')] and its two headers. *)
Definition imgpart (graph : string) : mime_part :=
  MIMEImage graph "png"
    [ mkHeader "Content-ID" "<graph>" [];
      mkHeader "Content-Disposition" "inline" [("filename", "graph.png")] ].

Definition send_graph_email (graph : option string) (subject : string)
    (sender : option string) (receivers : list string) (body : option string)
  : M unit :=
  let body := match body with
              | None => nl
              | Some b => b
              end in
  let body := match graph with
              | Some _ => body ++ img_tag
              | None => body
              end in
  let attached := [MIMEText body "html"] in
  let attached := match graph with
                  | Some g => (attached ++ [imgpart g])%list
                  | None => attached
                  end in
  let msg := {| multipart_subtype := "related";
                parts := attached;
                msg_to := join ", " receivers;
                msg_from := sender;
                msg_subject := subject |} in
  let except out := emit (LogError ("Sending mail failed: " ++ out)) in
  emit SmtpConnect ;;;
  match smtp_connect w with
  | Some out => except out
  | None =>
      emit (SmtpSend sender receivers msg) ;;;
      match smtp_sendmail w sender receivers msg with
      | Some out => except out
      | None =>
          emit SmtpClose ;;;
          match smtp_close w with
          | Some out => except out
          | None => ret tt
          end
      end
  end.

(** The subject line built in [main]. *)
Definition subject_line : string :=
  fmt (notification_type env) ++ " " ++ fmt (service_state env) ++ " "
  ++ fmt (host_alias env) ++ "/" ++ fmt (service_description env).

(** [contact_email.split(' ')]: [None] has no [split]. *)
Definition contact_list : M (list string) :=
  match contact_email env with
  | Some c => ret (split " "%char c)
  | None => raise AttributeError
  end.

Definition main (options : Options) : M unit :=
  let bgcolor :=
    get_highlight_color (notification_type env) (service_state env) in
  let body := generate_email_body env bgcolor in
  let subject := subject_line in
  graph <- get_graph options ;;
  receivers <- contact_list ;;
  send_graph_email graph subject (from_email options) receivers (Some body).

End Program.

End SendGraph.

(* ================================================================== *)
(** * Facts about strings                                               *)
(* ================================================================== *)

Module StringFacts.

(** The last two characters of a string (fewer when it is shorter). *)
Fixpoint last2 (s : string) : string :=
  match s with
  | String _ rest =>
      match rest with
      | String _ (String _ _) => last2 rest
      | _ => s
      end
  | EmptyString => s
  end.

Lemma append_assoc (a b c : string) : (a ++ b) ++ c = a ++ b ++ c.
Proof.
  induction a as [|ch a IH]; simpl.
  - reflexivity.
  - now rewrite IH.
Qed.

Lemma append_nil_r (a : string) : a ++ "" = a.
Proof.
  induction a as [|ch a IH]; simpl; [reflexivity | now rewrite IH].
Qed.

Lemma last2_append (a : string) (x y : ascii) (b : string) :
  last2 (a ++ String x (String y b)) = last2 (String x (String y b)).
Proof.
  induction a as [|ch a IH].
  - reflexivity.
  - change (String ch a ++ String x (String y b))
      with (String ch (a ++ String x (String y b))).
    destruct a as [|ch' a].
    + simpl. destruct b; reflexivity.
    + rewrite <- IH.
      change (String ch' a ++ String x (String y b))
        with (String ch' (a ++ String x (String y b))).
      destruct a as [|ch'' a]; reflexivity.
Qed.

End StringFacts.

(* ================================================================== *)
(** * Properties of check_okcomputer_health_page.py                     *)
(* ================================================================== *)

Module HealthPageProps.
Import Py HealthPage StringFacts.

(** ** What the aggregation loop expects of a report *)

(** An entry the loop gets through: a dict that has [success] and, when
    [success == False], [message] as well. *)
Definition entry_ok (valueDict : pyval) : bool :=
  match valueDict with
  | PDict d =>
      match dict_get "success" d with
      | Some s =>
          if eq_bool s false then
            match dict_get "message" d with
            | Some _ => true
            | None => false
            end
          else true
      | None => false
      end
  | _ => false
  end.

Definition report_ok (report : list (string * pyval)) : bool :=
  forallb (fun it => entry_ok (snd it)) report.

(** The failing check an entry stands for, if any. *)
Definition failing_of (it : string * pyval) : list Check :=
  match snd it with
  | PDict d =>
      match dict_get "success" d, dict_get "message" d with
      | Some s, Some m => if eq_bool s false then [mkCheck (fst it) m s] else []
      | _, _ => []
      end
  | _ => []
  end.

(** The failing checks of a report, in the order of its items. *)
Definition failingChecks (report : list (string * pyval)) : list Check :=
  flat_map failing_of report.

(** The report of the end-to-end example, in the order of the text. *)
Definition example_report : list (string * pyval) :=
  [ ("db", PDict [("message", PStr "ok"); ("success", PBool true)]);
    ("cache", PDict [("message", PStr "timeout"); ("success", PBool false)]) ].

(** A string between double quotes. *)
Definition q (s : string) : string := dq ++ s ++ dq.

(** The body of the end-to-end example. *)
Definition example_body : string :=
  "{" ++ q "db" ++ ":{" ++ q "message" ++ ":" ++ q "ok" ++ ","
      ++ q "success" ++ ":true},"
      ++ q "cache" ++ ":{" ++ q "message" ++ ":" ++ q "timeout" ++ ","
      ++ q "success" ++ ":false}}".


(** A report whose only check is [stub], and it fails. *)
Definition stub_report : list (string * pyval) :=
  [ ("stub", PDict [("success", PBool false); ("message", PStr "x")]) ].

(** A [json.loads] that knows one body. *)
Definition loads_one (body : string) (v : pyval) : string -> option pyval :=
  fun s => if String.eqb s body then Some v else None.

(** A rendering of floats, lists and dicts for the examples. *)
Definition repr_any : pyval -> string := fun _ => "?".

(** An [int] for the examples: it knows ["8080"]. *)
Definition int_8080 : string -> option Z :=
  fun s => if String.eqb s "8080" then Some 8080 else None.

(** A server that answers every URL with status 200 and [body]. *)
Definition serve (body : string) : string -> curl_result :=
  fun _ => CurlDone 200 body.

(** The checks of [badList] as they appear after the heading. *)
Fixpoint summary (py_repr : pyval -> string) (badList : list Check) : string :=
  match badList with
  | [] => ""
  | check :: rest => ", " ++ Check_str py_repr check ++ summary py_repr rest
  end.

Section Props.

Variable json_loads : string -> option pyval.
Variable py_repr : pyval -> string.
Variable py_int : string -> option Z.

Local Abbreviation run := (main json_loads py_repr py_int).

(** ** The aggregation loop *)

Lemma find_bad_ok (its : list (string * pyval)) :
  forall badList,
    report_ok its = true ->
    find_bad its badList = Ret (badList ++ failingChecks its)%list.
Proof.
  induction its as [|[checkName valueDict] rest IH]; intros badList Hok.
  - simpl. now rewrite app_nil_r.
  - simpl in Hok. apply andb_true_iff in Hok as [Hentry Hrest].
    destruct valueDict as [| | | | |l|d]; simpl in Hentry; try discriminate.
    unfold failingChecks. simpl. unfold failing_of. simpl.
    destruct (dict_get "success" d) as [s|] eqn:Hs; [|discriminate].
    simpl. destruct (eq_bool s false) eqn:Hf.
    + destruct (dict_get "message" d) as [m|] eqn:Hm; [|discriminate].
      simpl. rewrite IH by exact Hrest.
      now rewrite <- app_assoc.
    + rewrite IH by exact Hrest.
      now destruct (dict_get "message" d).
Qed.

Lemma find_bad_not_ok (its : list (string * pyval)) :
  forall badList,
    report_ok its = false ->
    exists e, find_bad its badList = Halt (Uncaught e [])
              /\ (e = KeyError \/ e = TypeError).
Proof.
  induction its as [|[checkName valueDict] rest IH]; intros badList Hbad.
  - discriminate.
  - simpl in Hbad. apply andb_false_iff in Hbad.
    destruct valueDict as [| | | | |l|d];
      try (exists TypeError; split; [reflexivity | now right]).
    simpl. destruct (dict_get "success" d) as [s|] eqn:Hs;
      [|exists KeyError; split; [reflexivity | now left]].
    simpl. destruct (eq_bool s false) eqn:Hf.
    + destruct (dict_get "message" d) as [m|] eqn:Hm;
        [|exists KeyError; split; [reflexivity | now left]].
      simpl. apply IH.
      destruct Hbad as [Hbad|Hbad]; [|exact Hbad].
      simpl in Hbad. now rewrite Hs, Hf, Hm in Hbad.
    + apply IH.
      destruct Hbad as [Hbad|Hbad]; [|exact Hbad].
      simpl in Hbad. now rewrite Hs, Hf in Hbad.
Qed.

Lemma entry_without_success (report : list (string * pyval)) checkName d :
  In (checkName, PDict d) report ->
  dict_get "success" d = None ->
  report_ok report = false.
Proof.
  intros Hin Hnone.
  destruct (report_ok report) eqn:Hok; [|reflexivity].
  unfold report_ok in Hok. rewrite forallb_forall in Hok.
  specialize (Hok _ Hin). simpl in Hok. now rewrite Hnone in Hok.
Qed.

(** ** The message of the CRITICAL branch *)

Lemma append_checks_ascii (badList : list Check) :
  forall msg,
    forallb ascii_text badList = true ->
    append_checks py_repr badList msg = Ret (msg ++ summary py_repr badList).
Proof.
  induction badList as [|check rest IH]; intros msg Hascii; simpl.
  - now rewrite append_nil_r.
  - simpl in Hascii. apply andb_true_iff in Hascii as [Hcheck Hrest].
    unfold str_check. rewrite Hcheck. simpl.
    rewrite (IH _ Hrest). now rewrite !append_assoc.
Qed.

Lemma append_checks_not_ascii (badList : list Check) :
  forall msg,
    forallb ascii_text badList = false ->
    append_checks py_repr badList msg = Halt (Uncaught UnicodeEncodeError []).
Proof.
  induction badList as [|check rest IH]; intros msg Hascii; simpl.
  - discriminate.
  - simpl in Hascii. unfold str_check.
    destruct (ascii_text check); simpl; [|reflexivity].
    now apply IH.
Qed.

Lemma critical_msg_summary (badList : list Check) :
  critical_msg py_repr badList
  = if forallb ascii_text badList
    then Ret ("CRITICAL: The following checks are failing"
                ++ summary py_repr badList)
    else Halt (Uncaught UnicodeEncodeError []).
Proof.
  unfold critical_msg. destruct (forallb ascii_text badList) eqn:Hascii.
  - now apply append_checks_ascii.
  - now apply append_checks_not_ascii.
Qed.

(** ** The run after a successful fetch *)

Lemma run_fetched argv perform a body :
  parse_args py_int argv = Ret a ->
  perform (build_url a) = CurlDone 200 body ->
  run argv perform
  = match json_loads body with
    | None =>
        Exit 3 ["UNKNOWN: " ++ build_url a
                  ++ " returned a non-json formatted string: " ++ body]
    | Some jsonResponse =>
        match items jsonResponse with
        | Halt o => o
        | Ret its =>
            match find_bad its [] with
            | Halt o => o
            | Ret [] => Exit 0 ["OK: All checks pass"]
            | Ret badList =>
                match critical_msg py_repr badList with
                | Ret msg => Exit 2 [msg]
                | Halt o => o
                end
            end
        end
    end.
Proof.
  intros Hargs Hperform. unfold main. rewrite Hargs. simpl.
  rewrite Hperform. simpl.
  destruct (json_loads body) as [jsonResponse|]; [|reflexivity].
  destruct (items jsonResponse) as [its|o]; [|reflexivity].
  simpl. destruct (find_bad its []) as [[|check rest]|o]; try reflexivity.
  simpl. now destruct (critical_msg py_repr (check :: rest)).
Qed.

Lemma run_report argv perform a body report :
  parse_args py_int argv = Ret a ->
  perform (build_url a) = CurlDone 200 body ->
  json_loads body = Some (PDict report) ->
  report_ok report = true ->
  run argv perform
  = match failingChecks report with
    | [] => Exit 0 ["OK: All checks pass"]
    | badList =>
        if forallb ascii_text badList
        then Exit 2 ["CRITICAL: The following checks are failing"
                       ++ summary py_repr badList]
        else Uncaught UnicodeEncodeError []
    end.
Proof.
  intros Hargs Hperform Hloads Hok.
  rewrite (run_fetched _ _ _ _ Hargs Hperform), Hloads. simpl.
  rewrite (find_bad_ok _ [] Hok). simpl.
  destruct (failingChecks report) as [|check rest]; [reflexivity|].
  rewrite critical_msg_summary. simpl.
  now destruct (ascii_text check && forallb ascii_text rest).
Qed.

Lemma parse_opts_keeps_stub (opts : list (string * string)) :
  forall d a,
    In "stub" (excludeList d) ->
    parse_opts py_int opts d = Ret a ->
    In "stub" (excludeList a).
Proof.
  induction opts as [|[opt arg] rest IH]; intros d a Hin Hparse.
  - simpl in Hparse. now inversion Hparse; subst.
  - simpl in Hparse. unfold parse_opt in Hparse.
    repeat match type of Hparse with
           | context [if ?c then _ else _] => destruct c
           end;
      try discriminate;
      try (destruct (py_int arg); [|discriminate]);
      simpl in Hparse; apply IH in Hparse; try exact Hparse; simpl;
      try exact Hin.
    apply in_or_app. now left.
Qed.

(** ** The claims *)


(** C2, as the code has it: a check is put on [badList] only when its
    [success] compares equal to [False].  A check whose [success] is
    neither equal to [True] nor to [False] ([None], a string, [2]) is not
    failing for the script: a report with only such a check is OK. *)
Theorem success_neither_true_nor_false argv perform a body checkName msg s :
  parse_args py_int argv = Ret a ->
  perform (build_url a) = CurlDone 200 body ->
  json_loads body
  = Some (PDict [(checkName, PDict [("message", msg); ("success", s)])]) ->
  eq_bool s true = false ->
  eq_bool s false = false ->
  run argv perform = Exit 0 ["OK: All checks pass"].
Proof.
  intros Hargs Hperform Hloads Hnot_true Hnot_false.
  rewrite (run_report _ _ _ _ _ Hargs Hperform Hloads).
  - unfold failingChecks, failing_of. simpl. now rewrite Hnot_false.
  - simpl. now rewrite Hnot_false.
Qed.

(** C3, as the code has it: [parse_args] keeps ["stub"] on [excludeList]
    whatever the options, and the aggregation never consults the list: a
    report whose only check is a failing [stub] is CRITICAL. *)
Theorem excluded_stub_still_critical opts perform a body :
  parse_args py_int (GetoptOk opts) = Ret a ->
  perform (build_url a) = CurlDone 200 body ->
  json_loads body = Some (PDict stub_report) ->
  In "stub" (excludeList a)
  /\ run (GetoptOk opts) perform
     = Exit 2 ["CRITICAL: The following checks are failing, stub : {message: x, success: False}"].
Proof.
  intros Hargs Hperform Hloads. split.
  - apply (parse_opts_keeps_stub opts return_dict0 a); [now left | exact Hargs].
  - now rewrite (run_report _ _ _ _ _ Hargs Hperform Hloads).
Qed.

(** C4, amended: a body that is not JSON gives the UNKNOWN line and exit
    code 3; a body that parses to something else than an object, or to an
    object with an entry that lacks [success], ends the run with an
    exception nobody catches, without a status line. *)
Theorem parse_failures argv perform a body :
  parse_args py_int argv = Ret a ->
  perform (build_url a) = CurlDone 200 body ->
  (json_loads body = None ->
   run argv perform
   = Exit 3 ["UNKNOWN: " ++ build_url a
               ++ " returned a non-json formatted string: " ++ body])
  /\ (forall v, json_loads body = Some v -> (forall d, v <> PDict d) ->
      run argv perform = Uncaught AttributeError [])
  /\ (forall report checkName d,
        json_loads body = Some (PDict report) ->
        In (checkName, PDict d) report ->
        dict_get "success" d = None ->
        exists e, run argv perform = Uncaught e []
                  /\ (e = KeyError \/ e = TypeError)).
Proof.
  intros Hargs Hperform.
  rewrite (run_fetched _ _ _ _ Hargs Hperform).
  split; [|split].
  - intros Hloads. now rewrite Hloads.
  - intros v Hloads Hnot_dict. rewrite Hloads.
    destruct v; try reflexivity. now elim (Hnot_dict d).
  - intros report checkName d Hloads Hin Hnone. rewrite Hloads. simpl.
    destruct (find_bad_not_ok report []
                (entry_without_success _ _ _ Hin Hnone)) as [e [He Hkind]].
    exists e. now rewrite He.
Qed.

(** C5, as the code has it: a transport failure ends the run with exit
    code 3, but the line printed starts with [UNKOWN], not [UNKNOWN]; a
    status code other than 200 ends it with exit code 3 and an [UNKNOWN]
    line.  Neither looks at the body. *)
Theorem transport_failures argv perform a :
  parse_args py_int argv = Ret a ->
  (perform (build_url a) = CurlError ->
   run argv perform = Exit 3 ["UNKOWN: problem pycurling " ++ build_url a]
   /\ forall line, In line (printed (run argv perform)) ->
                   prefix "UNKNOWN" line = false)
  /\ (forall http_code body,
        perform (build_url a) = CurlDone http_code body ->
        http_code <> 200 ->
        run argv perform
        = Exit 3 ["UNKNOWN: " ++ build_url a
                    ++ " returned a non 200 status code"]).
Proof.
  intros Hargs. split.
  - intros Hperform.
    assert (Hrun : run argv perform
                   = Exit 3 ["UNKOWN: problem pycurling " ++ build_url a]).
    { unfold main. rewrite Hargs. simpl. now rewrite Hperform. }
    split; [exact Hrun|].
    intros line Hin. rewrite Hrun in Hin. simpl in Hin.
    destruct Hin as [<-|[]]. reflexivity.
  - intros http_code body Hperform Hcode.
    unfold main. rewrite Hargs. simpl. rewrite Hperform.
    apply Z.eqb_neq in Hcode. now rewrite Hcode.
Qed.

End Props.

(** ** The claims at concrete inputs *)



(** A check whose [success] is [null], polled on port 8080. *)
Lemma success_neither_true_nor_false_witness :
  eq_bool PNone true = false
  /\ eq_bool PNone false = false
  /\ main (loads_one "{}" (PDict [("db", PDict [("message", PStr "m");
                                               ("success", PNone)])]))
          repr_any int_8080 (GetoptOk [("-p", "8080")]) (serve "{}")
     = Exit 0 ["OK: All checks pass"].
Proof.
  split; [reflexivity | split; [reflexivity|]].
  apply (success_neither_true_nor_false
           (loads_one "{}" (PDict [("db", PDict [("message", PStr "m");
                                                 ("success", PNone)])]))
           repr_any int_8080 (GetoptOk [("-p", "8080")]) (serve "{}")
           {| hostname := "localhost"; port := 8080; ssl := false;
              url := "/health_checks"; excludeList := ["stub"] |}
           "{}" "db" (PStr "m") PNone eq_refl eq_refl eq_refl eq_refl eq_refl).
Defined.

(** A failing [stub], excluded by default and once more with [-e stub]. *)
Lemma excluded_stub_still_critical_witness :
  In "stub" (excludeList {| hostname := "localhost"; port := 80; ssl := false;
                            url := "/health_checks";
                            excludeList := ["stub"; "stub"] |})
  /\ main (loads_one "{}" (PDict stub_report)) repr_any int_8080
          (GetoptOk [("-e", "stub")]) (serve "{}")
     = Exit 2 ["CRITICAL: The following checks are failing, stub : {message: x, success: False}"].
Proof.
  exact (excluded_stub_still_critical
           (loads_one "{}" (PDict stub_report)) repr_any int_8080
           [("-e", "stub")] (serve "{}")
           {| hostname := "localhost"; port := 80; ssl := false;
              url := "/health_checks"; excludeList := ["stub"; "stub"] |}
           "{}" eq_refl eq_refl eq_refl).
Defined.

(** C4 as stated fails: a body whose top level is an array, and a body
    with an entry that lacks [success], both end the run with an uncaught
    exception instead of exit code 3. *)
Lemma shape_errors_are_uncaught :
  main (loads_one "[]" (PList [])) repr_any int_8080 (GetoptOk []) (serve "[]")
  = Uncaught AttributeError []
  /\ exit_code (main (loads_one "[]" (PList [])) repr_any int_8080
                     (GetoptOk []) (serve "[]")) <> Some 3
  /\ main (loads_one "{}" (PDict [("db", PDict [("message", PStr "ok")])]))
          repr_any int_8080 (GetoptOk []) (serve "{}")
     = Uncaught KeyError []
  /\ exit_code (main (loads_one "{}"
                        (PDict [("db", PDict [("message", PStr "ok")])]))
                     repr_any int_8080 (GetoptOk []) (serve "{}")) <> Some 3.
Proof.
  repeat split; try reflexivity; discriminate.
Qed.

(** A body that is not JSON, with the default options. *)
Lemma parse_failures_witness :
  main (fun _ => None) repr_any int_8080 (GetoptOk []) (serve "<html>")
  = Exit 3 ["UNKNOWN: http://localhost:80/health_checks returned a non-json formatted string: <html>"].
Proof.
  exact (proj1 (parse_failures (fun _ => None) repr_any int_8080
                  (GetoptOk []) (serve "<html>") return_dict0 "<html>"
                  eq_refl eq_refl) eq_refl).
Defined.

(** A transport failure, with the default options. *)
Lemma transport_failures_witness :
  main (fun _ => None) repr_any int_8080 (GetoptOk []) (fun _ => CurlError)
  = Exit 3 ["UNKOWN: problem pycurling http://localhost:80/health_checks"].
Proof.
  exact (proj1 (proj1 (transport_failures (fun _ => None) repr_any int_8080
                         (GetoptOk []) (fun _ => CurlError) return_dict0
                         eq_refl) eq_refl)).
Defined.

End HealthPageProps.

(* ================================================================== *)
(** * Properties of sendgraph.py                                        *)
(* ================================================================== *)

Module SendGraphProps.
Import Py SendGraph StringFacts.

(** The colours [get_highlight_color] can return. *)
Definition colors : list string :=
  ["cyan"; "greenyellow"; "lightcoral"; "yellow"; "springgreen"; "grey";
   "fuchsia"].

(** The service states that have a colour of their own. *)
Definition known_states : list string :=
  ["CRITICAL"; "WARNING"; "OK"; "UNKNOWN"].

(** The message [main] hands to the mail transport, given the graph. *)
Definition alert_message (env : environ) (options : Options)
    (receivers : list string) (graph : option string) : message :=
  let body :=
    generate_email_body env
      (get_highlight_color (notification_type env) (service_state env)) in
  {| multipart_subtype := "related";
     parts := match graph with
              | Some g => [MIMEText (body ++ img_tag) "html"; imgpart g]
              | None => [MIMEText body "html"]
              end;
     msg_to := join ", " receivers;
     msg_from := from_email options;
     msg_subject := subject_line env |}.

(** Is a part an image? *)
Definition is_image (p : mime_part) : bool :=
  match p with
  | MIMEImage _ _ _ => true
  | MIMEText _ _ => false
  end.

(** An alert context for the examples. *)
Definition example_env (metric : option string) : environ :=
  {| graphite_metric := metric;
     warn_threshold := Some "1";
     crit_threshold := Some "5";
     contact_email := Some "ops@example.com oncall@example.com";
     notification_type := Some "PROBLEM";
     service_state := Some "CRITICAL";
     host_alias := Some "web1";
     host_address := Some "10.0.0.1";
     service_description := Some "s_dn_test";
     date_time := Some "Mon Aug 4 2014";
     action_url := Some "https://myrunbook/link";
     service_output := Some "5 > 1";
     service_duration := Some "0d 0h 5m 0s" |}.

(** Options for the examples. *)
Definition example_options : Options :=
  {| base_url := Some "http://graphite"; interval := Some "6hours";
     width := Some "800"; from_email := Some "icinga@example.com" |}.

(** A world whose graph server answers as told and whose mail transport
    works. *)
Definition world_with (answer : http_result) : world :=
  {| requests_get := fun _ => answer;
     smtp_connect := None;
     smtp_sendmail := fun _ _ _ => None;
     smtp_close := None |}.

(** The URL requested in the examples. *)
Definition example_url : string :=
  "http://graphite/render?lineMode=connected&from=-6hours&width=800&target=maxSeries(stats.gauges.count.*)&bgcolor=FFFFFF&fgcolor=000000&target=threshold(1,'warn = 1','yellow')&target=threshold(5, 'crit = 5','red')".

(** The URL of the graph before the overlays are appended. *)
Definition plain_url (options : Options) (metric : string) : string :=
  fmt (base_url options) ++ "/render?lineMode=connected&from=-"
  ++ fmt (interval options) ++ "&"
  ++ "width=" ++ fmt (width options) ++ "&target=" ++ metric
  ++ "&bgcolor=FFFFFF&fgcolor=000000".

(** ** Comparisons with a literal *)

Lemma eq_lit_true v lit : eq_lit v lit = true <-> v = Some lit.
Proof.
  destruct v as [s|]; simpl.
  - rewrite String.eqb_eq. split; [now intros -> | now intros [= ->]].
  - split; discriminate.
Qed.

Lemma eq_lit_false v lit : eq_lit v lit = false <-> v <> Some lit.
Proof.
  rewrite <- eq_lit_true. destruct (eq_lit v lit); split; congruence.
Qed.

(** ** The highlight colour *)

(** C6: the colour is a priority table.  An acknowledgement is cyan and a
    custom notification greenyellow whatever the service state; otherwise
    CRITICAL, WARNING, OK and UNKNOWN have four colours of their own; any
    other state gives the fallback colour; the seven colours are pairwise
    distinct. *)
Theorem highlight_priority (nt st : option string) :
  (nt = Some "ACKNOWLEDGEMENT" -> get_highlight_color nt st = "cyan")
  /\ (nt = Some "CUSTOM" -> get_highlight_color nt st = "greenyellow")
  /\ (nt <> Some "ACKNOWLEDGEMENT" -> nt <> Some "CUSTOM" ->
      (st = Some "CRITICAL" -> get_highlight_color nt st = "lightcoral")
      /\ (st = Some "WARNING" -> get_highlight_color nt st = "yellow")
      /\ (st = Some "OK" -> get_highlight_color nt st = "springgreen")
      /\ (st = Some "UNKNOWN" -> get_highlight_color nt st = "grey")
      /\ ((forall s, In s known_states -> st <> Some s) ->
          get_highlight_color nt st = "fuchsia"))
  /\ NoDup colors.
Proof.
  split; [now intros -> |].
  split; [now intros -> |].
  split.
  - intros Hack Hcustom. apply eq_lit_false in Hack, Hcustom.
    unfold get_highlight_color. rewrite Hack, Hcustom.
    repeat split; try (now intros ->).
    intros Hother.
    assert (Hlit : forall s, In s known_states -> eq_lit st s = false).
    { intros s Hs. apply eq_lit_false. now apply Hother. }
    rewrite !Hlit by (simpl; tauto). reflexivity.
  - unfold colors.
    repeat (constructor; [simpl; intuition discriminate|]). constructor.
Qed.

(** C10: the colour function is total: for every pair of values, strings
    or [None], it returns one of the seven colours, and it returns the
    fallback colour exactly when none of the six rules matches. *)
Theorem highlight_total (nt st : option string) :
  In (get_highlight_color nt st) colors
  /\ (get_highlight_color nt st = "fuchsia" <->
      nt <> Some "ACKNOWLEDGEMENT" /\ nt <> Some "CUSTOM"
      /\ st <> Some "CRITICAL" /\ st <> Some "WARNING"
      /\ st <> Some "OK" /\ st <> Some "UNKNOWN").
Proof.
  rewrite <- !eq_lit_false. unfold get_highlight_color, colors.
  destruct (eq_lit nt "ACKNOWLEDGEMENT");
    [split; [simpl; tauto | split; [discriminate | intuition discriminate]]|].
  destruct (eq_lit nt "CUSTOM");
    [split; [simpl; tauto | split; [discriminate | intuition discriminate]]|].
  destruct (eq_lit st "CRITICAL");
    [split; [simpl; tauto | split; [discriminate | intuition discriminate]]|].
  destruct (eq_lit st "WARNING");
    [split; [simpl; tauto | split; [discriminate | intuition discriminate]]|].
  destruct (eq_lit st "OK");
    [split; [simpl; tauto | split; [discriminate | intuition discriminate]]|].
  destruct (eq_lit st "UNKNOWN");
    [split; [simpl; tauto | split; [discriminate | intuition discriminate]]|].
  split; [simpl; tauto | tauto].
Qed.

(** ** The graph request *)

Lemma graph_url_shape env options metric :
  graph_url env options metric
  = plain_url options metric
    ++ match warn_threshold env with
       | Some warn => warn_target warn
       | None => ""
       end
    ++ match crit_threshold env with
       | Some crit => crit_target crit
       | None => ""
       end.
Proof.
  unfold graph_url. fold (plain_url options metric).
  destruct (warn_threshold env), (crit_threshold env);
    now rewrite ?append_assoc, ?append_nil_r.
Qed.

Section Run.

Variable w : world.
Variable env : environ.
Variable options : Options.

Lemma get_graph_no_metric :
  graphite_metric env = None ->
  get_graph w env options = ([], Ok None).
Proof. intros Hnone. unfold get_graph. now rewrite Hnone. Qed.

Lemma get_graph_metric metric :
  graphite_metric env = Some metric ->
  get_graph w env options
  = ([HttpGet (graph_url env options metric)],
     match requests_get w (graph_url env options metric) with
     | GetRaises => Raise RequestException
     | GetResponse _ content => Ok (Some content)
     end).
Proof.
  intros Hsome. unfold get_graph. rewrite Hsome. simpl.
  now destruct (requests_get w (graph_url env options metric)).
Qed.



(** The body built by [generate_email_body] ends with the table, not
    with the image reference. *)
Lemma body_has_no_img_tag bgcolor pre :
  generate_email_body env bgcolor <> pre ++ img_tag.
Proof.
  intros Heq. apply (f_equal last2) in Heq.
  assert (Hbody : last2 (generate_email_body env bgcolor) = "E>").
  { unfold generate_email_body. rewrite <- !append_assoc.
    now rewrite last2_append. }
  assert (Himg : last2 (pre ++ img_tag) = String (ascii_of_nat 34) ">").
  { let tag := eval cbv in img_tag in change img_tag with tag.
    now rewrite last2_append. }
  rewrite Hbody, Himg in Heq. discriminate Heq.
Qed.

(** ** The claims *)



End Run.

(** C9: the URL requested is a function of the base URL, the interval,
    the width, the metric and the two thresholds: two runs that agree on
    them request the same URL, whatever else differs in the alert context
    and in the outside world.  A warning threshold adds the overlay
    labelled [warn = value] in yellow, a critical threshold the overlay
    labelled [crit = value] in red. *)
Theorem graph_url_deterministic w1 w2 env1 env2 o1 o2 metric :
  base_url o1 = base_url o2 ->
  interval o1 = interval o2 ->
  width o1 = width o2 ->
  graphite_metric env1 = Some metric ->
  graphite_metric env2 = Some metric ->
  warn_threshold env1 = warn_threshold env2 ->
  crit_threshold env1 = crit_threshold env2 ->
  graph_url env1 o1 metric = graph_url env2 o2 metric
  /\ requested (get_graph w1 env1 o1) = [graph_url env1 o1 metric]
  /\ requested (get_graph w2 env2 o2) = requested (get_graph w1 env1 o1)
  /\ (forall warn, warn_threshold env1 = Some warn ->
      exists pre post,
        graph_url env1 o1 metric
        = pre ++ "&target=threshold(" ++ warn ++ ",'warn = " ++ warn
              ++ "','yellow')" ++ post)
  /\ (forall crit, crit_threshold env1 = Some crit ->
      exists pre,
        graph_url env1 o1 metric
        = pre ++ "&target=threshold(" ++ crit ++ ", 'crit = " ++ crit
              ++ "','red')")
  /\ "yellow" <> "red".
Proof.
  intros Hbase Hinterval Hwidth Hm1 Hm2 Hwarn Hcrit.
  assert (Hurl : graph_url env1 o1 metric = graph_url env2 o2 metric).
  { unfold graph_url. now rewrite Hbase, Hinterval, Hwidth, Hwarn, Hcrit. }
  assert (Hreq : forall w env o,
             graphite_metric env = Some metric ->
             requested (get_graph w env o) = [graph_url env o metric]).
  { intros w env o Hm. now rewrite (get_graph_metric w env o metric Hm). }
  split; [exact Hurl|].
  split; [now apply Hreq|].
  split; [now rewrite !Hreq, Hurl|].
  split; [|split; [|discriminate]].
  - intros warn Hw. exists (plain_url o1 metric).
    exists (match crit_threshold env1 with
            | Some crit => crit_target crit
            | None => ""
            end).
    rewrite graph_url_shape, Hw. unfold warn_target.
    rewrite !append_assoc. reflexivity.
  - intros crit Hc.
    exists (plain_url o1 metric
            ++ match warn_threshold env1 with
               | Some warn => warn_target warn
               | None => ""
               end).
    rewrite graph_url_shape, Hc. unfold crit_target.
    rewrite !append_assoc. reflexivity.
Qed.

(** ** The claims at concrete inputs *)

(** The four cases of the specification: an acknowledgement of a CRITICAL
    service, a custom notification of a WARNING one, a CRITICAL problem,
    and a state outside the table. *)
Lemma highlight_priority_witness :
  get_highlight_color (Some "ACKNOWLEDGEMENT") (Some "CRITICAL") = "cyan"
  /\ get_highlight_color (Some "CUSTOM") (Some "WARNING") = "greenyellow"
  /\ get_highlight_color (Some "PROBLEM") (Some "CRITICAL") = "lightcoral"
  /\ get_highlight_color (Some "PROBLEM") (Some "GARBAGE") = "fuchsia".
Proof.
  split; [|split; [|split]].
  - exact (proj1 (highlight_priority (Some "ACKNOWLEDGEMENT")
                    (Some "CRITICAL")) eq_refl).
  - exact (proj1 (proj2 (highlight_priority (Some "CUSTOM")
                           (Some "WARNING"))) eq_refl).
  - apply (proj1 (proj2 (proj2 (highlight_priority (Some "PROBLEM")
                                  (Some "CRITICAL")))));
      [discriminate | discriminate | reflexivity].
  - apply (proj1 (proj2 (proj2 (highlight_priority (Some "PROBLEM")
                                  (Some "GARBAGE")))));
      [discriminate | discriminate |].
    intros s Hs. simpl in Hs.
    decompose [or] Hs; subst; try discriminate. contradiction.
Defined.




(** Two runs with the same graph inputs: one in a world where the fetch
    raises, one where it succeeds and with another from address. *)
Lemma graph_url_deterministic_witness :
  requested (get_graph (world_with GetRaises)
               (example_env (Some "maxSeries(stats.gauges.count.*)"))
               example_options)
  = [example_url]
  /\ requested (get_graph (world_with (GetResponse 200 "PNG"))
                  (example_env (Some "maxSeries(stats.gauges.count.*)"))
                  {| base_url := Some "http://graphite";
                     interval := Some "6hours"; width := Some "800";
                     from_email := None |})
     = requested (get_graph (world_with GetRaises)
                    (example_env (Some "maxSeries(stats.gauges.count.*)"))
                    example_options).
Proof.
  destruct (graph_url_deterministic
              (world_with GetRaises) (world_with (GetResponse 200 "PNG"))
              (example_env (Some "maxSeries(stats.gauges.count.*)"))
              (example_env (Some "maxSeries(stats.gauges.count.*)"))
              example_options
              {| base_url := Some "http://graphite";
                 interval := Some "6hours"; width := Some "800";
                 from_email := None |}
              "maxSeries(stats.gauges.count.*)"
              eq_refl eq_refl eq_refl eq_refl eq_refl eq_refl eq_refl)
    as (_ & Hfirst & Hsecond & _).
  split; [exact Hfirst | exact Hsecond].
Defined.

End SendGraphProps.

(* ================================================================== *)
(** * More on check_okcomputer_health_page.py                           *)
(* ================================================================== *)

Module HealthPageMore.
Import Py HealthPage StringFacts HealthPageProps.

(** The arguments of the options of [opts] that go by one of [names], in
    the order of the command line. *)
Definition opt_args (names : list string) (opts : list (string * string))
  : list string :=
  map snd (filter (fun o => str_in (fst o) names) opts).

(** The integers among the results of [int] on a list of strings. *)
Definition ints_of (py_int : string -> option Z) (l : list string) : list Z :=
  flat_map (fun s => match py_int s with
                     | Some n => [n]
                     | None => []
                     end) l.

(** Does [success == False] hold for this entry? *)
Definition reports_failure (valueDict : pyval) : bool :=
  match valueDict with
  | PDict d =>
      match dict_get "success" d with
      | Some s => eq_bool s false
      | None => false
      end
  | _ => false
  end.

(** Is this entry a dict whose [success] is there and not equal to
    [False]? *)
Definition passes (valueDict : pyval) : bool :=
  match valueDict with
  | PDict d =>
      match dict_get "success" d with
      | Some s => negb (eq_bool s false)
      | None => false
      end
  | _ => false
  end.

(** The exception an entry the loop does not get through raises. *)
Definition entry_exn (valueDict : pyval) : exn :=
  match valueDict with
  | PDict _ => KeyError
  | _ => TypeError
  end.

(** A server that knows one URL. *)
Definition serve_at (u body : string) : string -> curl_result :=
  fun u' => if String.eqb u' u then CurlDone 200 body else CurlError.

Lemma last_cons {A : Type} (x : A) (l : list A) (d : A) :
  last (x :: l) d = last l x.
Proof.
  revert x d. induction l as [|y l IH]; intros x d; [reflexivity|].
  change (last (x :: y :: l) d) with (last (y :: l) d).
  now rewrite !IH.
Qed.

Lemma last_match {A : Type} (x : A) (l : list A) (d : A) :
  match l with
  | [] => x
  | _ :: _ => last l d
  end = last l x.
Proof. destruct l as [|y l]; [reflexivity | now rewrite !last_cons]. Qed.

Lemma prefix_append (p s : string) : prefix p (p ++ s) = true.
Proof.
  induction p as [|c p IH]; simpl; [now destruct s|].
  destruct (ascii_dec c c) as [_|Hne]; [exact IH | now elim Hne].
Qed.

(** From [T : str_in opt [a; b] = true] to the two cases [opt = a] and
    [opt = b], each with the record of [Hopt] read off and the goal
    reduced. *)
Ltac opt_is T :=
  unfold str_in in T; cbn [existsb] in T; rewrite orb_false_r in T;
  apply orb_true_iff in T; destruct T as [T|T];
  apply String.eqb_eq in T; subst;
  match goal with
  | Hopt : _ = Ret _ |- _ => try (injection Hopt as <-)
  end;
  simpl in *; rewrite ?last_match, ?orb_true_r;
  repeat match goal with
         | H : excludeList _ = ((_ ++ _) ++ _)%list |- _ =>
             rewrite <- app_assoc in H; simpl in H
         end;
  repeat split; try assumption.

Section More.

Variable json_loads : string -> option pyval.
Variable py_repr : pyval -> string.
Variable py_int : string -> option Z.

Local Abbreviation run := (main json_loads py_repr py_int).

(** ** Options *)

Lemma parse_opts_app (pre post : list (string * string)) :
  forall d,
    parse_opts py_int (pre ++ post) d
    = bind (parse_opts py_int pre d) (parse_opts py_int post).
Proof.
  induction pre as [|[opt arg] pre IH]; intros d; simpl.
  - reflexivity.
  - destruct (parse_opt py_int d opt arg) as [d'|o]; simpl; [apply IH | reflexivity].
Qed.

(** What the fields of the dict are after a loop that went through. *)
Lemma parse_opts_fields (opts : list (string * string)) :
  forall d a,
    parse_opts py_int opts d = Ret a ->
    hostname a = last (opt_args ["-H"; "--hostname"] opts) (hostname d)
    /\ port a = last (ints_of py_int (opt_args ["-p"; "--port"] opts)) (port d)
    /\ ssl a = ssl d || existsb (fun o => str_in (fst o) ["-S"; "--ssl"]) opts
    /\ url a = last (opt_args ["-u"; "--url"] opts) (url d)
    /\ excludeList a
       = (excludeList d ++ opt_args ["-e"; "--exclude"] opts)%list
    /\ opt_args ["-h"; "--help"] opts = [].
Proof.
  induction opts as [|[opt arg] rest IH]; intros d a Hparse.
  - simpl in Hparse. injection Hparse as <-. simpl.
    now rewrite orb_false_r, app_nil_r.
  - simpl in Hparse.
    destruct (parse_opt py_int d opt arg) as [d'|o] eqn:Hopt; [|discriminate].
    simpl in Hparse. apply IH in Hparse.
    destruct Hparse as (Hh & Hp & Hs & Hu & He & Hhelp).
    unfold opt_args in *. unfold parse_opt in Hopt.
    cbn [filter map fst snd existsb].
    destruct (str_in opt ["-h"; "--help"]) eqn:T1; [discriminate|].
    destruct (str_in opt ["-H"; "--hostname"]) eqn:T2; [now opt_is T2|].
    destruct (str_in opt ["-p"; "--port"]) eqn:T3.
    { destruct (py_int arg) as [n|] eqn:Hint; [|discriminate].
      opt_is T3; unfold ints_of in *; simpl in *; rewrite Hint;
        simpl; rewrite ?last_match; repeat split; assumption. }
    destruct (str_in opt ["-S"; "--ssl"]) eqn:T4; [now opt_is T4|].
    destruct (str_in opt ["-u"; "--url"]) eqn:T5; [now opt_is T5|].
    destruct (str_in opt ["-e"; "--exclude"]) eqn:T6; [now opt_is T6|].
    injection Hopt as <-. now repeat split.
Qed.

(** How the loop over the options can end. *)
Lemma parse_opts_cases (opts : list (string * string)) :
  forall d,
    (exists a, parse_opts py_int opts d = Ret a)
    \/ parse_opts py_int opts d = Halt (Exit 3 usage_lines)
    \/ parse_opts py_int opts d = Halt (Uncaught ValueError []).
Proof.
  induction opts as [|[opt arg] rest IH]; intros d; simpl.
  - left. now exists d.
  - unfold parse_opt.
    repeat match goal with
           | |- context [if ?c then _ else _] => destruct c
           end;
      try (destruct (py_int arg)); simpl; auto.
Qed.

(** ** The aggregation loop, once more *)

Lemma find_bad_app (r1 r2 : list (string * pyval)) :
  forall badList,
    report_ok r1 = true ->
    find_bad (r1 ++ r2) badList
    = find_bad r2 (badList ++ failingChecks r1).
Proof.
  induction r1 as [|[checkName valueDict] r1 IH]; intros badList Hok.
  - simpl. now rewrite app_nil_r.
  - simpl in Hok. apply andb_true_iff in Hok as [Hentry Hrest].
    destruct valueDict as [| | | | |l|d]; simpl in Hentry; try discriminate.
    unfold failingChecks. simpl. unfold failing_of. simpl.
    destruct (dict_get "success" d) as [s|] eqn:Hs; [|discriminate].
    simpl. destruct (eq_bool s false) eqn:Hf.
    + destruct (dict_get "message" d) as [m|] eqn:Hm; [|discriminate].
      simpl. rewrite IH by exact Hrest.
      now rewrite <- app_assoc.
    + rewrite IH by exact Hrest.
      now destruct (dict_get "message" d).
Qed.

Lemma find_bad_entry checkName valueDict rest badList :
  entry_ok valueDict = false ->
  find_bad ((checkName, valueDict) :: rest) badList
  = Halt (Uncaught (entry_exn valueDict) []).
Proof.
  intros Hbad. destruct valueDict as [| | | | |l|d]; try reflexivity.
  simpl in *. destruct (dict_get "success" d) as [s|]; [|reflexivity].
  simpl. destruct (eq_bool s false); [|discriminate].
  now destruct (dict_get "message" d).
Qed.

Lemma failing_checks_described (its : list (string * pyval)) :
  report_ok its = true ->
  map name (failingChecks its)
  = map fst (filter (fun it => reports_failure (snd it)) its)
  /\ Forall (fun check =>
               eq_bool (success check) false = true
               /\ exists d, In (name check, PDict d) its
                            /\ dict_get "message" d = Some (message check)
                            /\ dict_get "success" d = Some (success check))
            (failingChecks its).
Proof.
  induction its as [|[checkName valueDict] rest IH]; intros Hok.
  - split; [reflexivity | constructor].
  - simpl in Hok. apply andb_true_iff in Hok as [Hentry Hrest].
    destruct (IH Hrest) as [Hnames Hall].
    assert (Hall' : Forall (fun check =>
               eq_bool (success check) false = true
               /\ exists d, In (name check, PDict d)
                               ((checkName, valueDict) :: rest)
                            /\ dict_get "message" d = Some (message check)
                            /\ dict_get "success" d = Some (success check))
            (failingChecks rest)).
    { eapply Forall_impl; [|exact Hall].
      intros check (Hf & d & Hin & Hm & Hs).
      split; [exact Hf|]. exists d. split; [now right | now split]. }
    destruct valueDict as [| | | | |l|d]; simpl in Hentry; try discriminate.
    unfold failingChecks. simpl. unfold failing_of. simpl.
    destruct (dict_get "success" d) as [s|] eqn:Hs; [|discriminate].
    destruct (eq_bool s false) eqn:Hf.
    + destruct (dict_get "message" d) as [m|] eqn:Hm; [|discriminate].
      simpl. split; [now f_equal|].
      constructor; [|exact Hall'].
      simpl. split; [exact Hf|]. exists d. split; [now left | now split].
    + destruct (dict_get "message" d); simpl; now split.
Qed.

Lemma passing_report (its : list (string * pyval)) :
  forallb (fun it => passes (snd it)) its = true ->
  report_ok its = true /\ failingChecks its = [].
Proof.
  induction its as [|[checkName valueDict] rest IH]; intros Hpass.
  - now split.
  - simpl in Hpass. apply andb_true_iff in Hpass as [Hentry Hrest].
    destruct (IH Hrest) as [Hok Hnone].
    destruct valueDict as [| | | | |l|d]; simpl in Hentry; try discriminate.
    unfold failingChecks. simpl. unfold failing_of. simpl.
    destruct (dict_get "success" d) as [s|]; [|discriminate].
    apply negb_true_iff in Hentry. rewrite Hentry.
    split; [exact Hok|]. now destruct (dict_get "message" d).
Qed.

(** ** Properties *)

(** X1: when [parse_args] returns, [excludeList] is ["stub"] followed by
    the arguments of all [-e] options, in the order of the command line. *)
Theorem exclude_list_collects opts a :
  parse_args py_int (GetoptOk opts) = Ret a ->
  excludeList a = "stub" :: opt_args ["-e"; "--exclude"] opts.
Proof.
  intros Hargs. apply parse_opts_fields in Hargs.
  now destruct Hargs as (_ & _ & _ & _ & He & _).
Qed.

(** X2: when [parse_args] returns, a later [-H], [-p] or [-u] overrides an
    earlier one and the defaults are [localhost], [80] and
    [/health_checks]; [ssl] is set exactly when some [-S] is given; and
    no [-h] was among the options. *)
Theorem later_options_override opts a :
  parse_args py_int (GetoptOk opts) = Ret a ->
  hostname a = last (opt_args ["-H"; "--hostname"] opts) "localhost"
  /\ port a = last (ints_of py_int (opt_args ["-p"; "--port"] opts)) 80
  /\ url a = last (opt_args ["-u"; "--url"] opts) "/health_checks"
  /\ ssl a = existsb (fun o => str_in (fst o) ["-S"; "--ssl"]) opts
  /\ opt_args ["-h"; "--help"] opts = [].
Proof.
  intros Hargs. apply parse_opts_fields in Hargs.
  destruct Hargs as (Hh & Hp & Hs & Hu & _ & Hhelp). now repeat split.
Qed.

(** X3: a command line [getopt] rejects, and a [-h] that the loop over
    the options reaches, both end the run with the usage text and exit
    code 3, whatever the options after it and whatever the server would
    answer. *)
Theorem help_prints_usage perform :
  run GetoptError perform = Exit 3 usage_lines
  /\ forall pre arg post d,
       parse_opts py_int pre return_dict0 = Ret d ->
       run (GetoptOk (pre ++ ("-h", arg) :: post)) perform
       = Exit 3 usage_lines.
Proof.
  split; [reflexivity|].
  intros pre arg post d Hpre.
  unfold main, parse_args. now rewrite parse_opts_app, Hpre.
Qed.

(** X4: a [-p] whose argument [int] rejects, reached by the loop over the
    options, ends the run with an uncaught [ValueError]: nothing is
    printed and the server is not polled. *)
Theorem bad_port_is_uncaught perform pre arg post d :
  parse_opts py_int pre return_dict0 = Ret d ->
  py_int arg = None ->
  run (GetoptOk (pre ++ ("-p", arg) :: post)) perform
  = Uncaught ValueError [].
Proof.
  intros Hpre Hint.
  unfold main, parse_args. rewrite parse_opts_app, Hpre. simpl.
  unfold parse_opt. simpl. now rewrite Hint.
Qed.

(** X5: the run looks at the network through one URL only, the one built
    from the options: two networks that answer alike at that URL give the
    same run. *)
Theorem polls_one_url argv perform1 perform2 :
  (forall a, parse_args py_int argv = Ret a ->
             perform1 (build_url a) = perform2 (build_url a)) ->
  run argv perform1 = run argv perform2.
Proof.
  intros Hsame. unfold main.
  destruct (parse_args py_int argv) as [a|o]; [|reflexivity].
  simpl. now rewrite (Hsame a eq_refl).
Qed.

(** X6: every run ends in one of these ways: exit code 0 with the line
    [OK: All checks pass]; exit code 2 with one line that starts with the
    CRITICAL heading and names at least one check; exit code 3 with the
    usage text or with one line that starts with [UNKNOWN: ] or
    [UNKOWN: ]; or an uncaught [ValueError], [AttributeError], [KeyError],
    [TypeError] or [UnicodeEncodeError] with nothing printed.  The
    process ends with status 1 exactly in the last case: [sys.exit] is
    never called with 1. *)
Theorem run_outcomes argv perform :
  match run argv perform with
  | Exit code out =>
      (code = 0 /\ out = ["OK: All checks pass"])
      \/ (code = 2
          /\ exists check rest,
               out = ["CRITICAL: The following checks are failing, "
                        ++ Check_str py_repr check ++ rest])
      \/ (code = 3
          /\ (out = usage_lines
              \/ exists line, out = [line]
                              /\ (prefix "UNKNOWN: " line = true
                                  \/ prefix "UNKOWN: " line = true)))
  | Uncaught e out =>
      out = []
      /\ In e [ValueError; AttributeError; KeyError; TypeError;
               UnicodeEncodeError]
  end
  /\ (process_status (run argv perform) = 1
      <-> exists e, run argv perform = Uncaught e []).
Proof.
  assert (Hshape :
    match run argv perform with
    | Exit code out =>
        (code = 0 /\ out = ["OK: All checks pass"])
        \/ (code = 2
            /\ exists check rest,
                 out = ["CRITICAL: The following checks are failing, "
                          ++ Check_str py_repr check ++ rest])
        \/ (code = 3
            /\ (out = usage_lines
                \/ exists line, out = [line]
                                /\ (prefix "UNKNOWN: " line = true
                                    \/ prefix "UNKOWN: " line = true)))
    | Uncaught e out =>
        out = []
        /\ In e [ValueError; AttributeError; KeyError; TypeError;
                 UnicodeEncodeError]
    end).
  { unfold main.
    destruct argv as [|opts]; simpl; [right; right; split; auto|].
    destruct (parse_opts_cases opts return_dict0) as [[a Ha]|[Ha|Ha]];
      rewrite Ha; simpl;
      [|right; right; split; auto | split; simpl; auto].
    destruct (perform (build_url a)) as [|http_code body].
    { simpl. right. right. split; [reflexivity|]. right.
      eexists. split; [reflexivity|]. right.
      apply (prefix_append "UNKOWN: "). }
    destruct (http_code =? 200); simpl.
    2:{ right. right. split; [reflexivity|]. right.
        eexists. split; [reflexivity|]. left.
        apply (prefix_append "UNKNOWN: "). }
    destruct (json_loads body) as [jsonResponse|].
    2:{ simpl. right. right. split; [reflexivity|]. right.
        eexists. split; [reflexivity|]. left.
        apply (prefix_append "UNKNOWN: "). }
    destruct jsonResponse as [| | | | |l|report];
      try (simpl; split; simpl; tauto).
    simpl. destruct (report_ok report) eqn:Hok.
    - rewrite (find_bad_ok report [] Hok). simpl.
      destruct (failingChecks report) as [|check rest]; [now left|].
      rewrite critical_msg_summary.
      destruct (forallb ascii_text (check :: rest)); simpl.
      + right. left. split; [reflexivity|].
        now exists check, (summary py_repr rest).
      + split; [reflexivity | tauto].
    - destruct (find_bad_not_ok report [] Hok) as [e [He Hkind]].
      rewrite He. simpl. split; [reflexivity|].
      destruct Hkind as [-> | ->]; simpl; tauto. }
  split; [exact Hshape|].
  destruct (run argv perform) as [code out|e out]; simpl.
  - split.
    + intros ->.
      destruct Hshape as [[Hc _]|[[Hc _]|[Hc _]]]; discriminate Hc.
    + intros [e He]. discriminate He.
  - destruct Hshape as [-> _]. split; [|reflexivity].
    intros _. now exists e.
Qed.

(** X7: when the loop gets through a report, the names on [badList] are
    the names of the entries whose [success] equals [False], in the order
    of the items; each check on the list carries the [message] and the
    [success] of its entry. *)
Theorem bad_list_in_order its :
  report_ok its = true ->
  exists badList,
    find_bad its [] = Ret badList
    /\ map name badList
       = map fst (filter (fun it => reports_failure (snd it)) its)
    /\ Forall (fun check =>
                 eq_bool (success check) false = true
                 /\ exists d, In (name check, PDict d) its
                              /\ dict_get "message" d = Some (message check)
                              /\ dict_get "success" d = Some (success check))
              badList.
Proof.
  intros Hok. exists (failingChecks its).
  split; [exact (find_bad_ok its [] Hok)|].
  exact (failing_checks_described its Hok).
Qed.

(** X8: the first entry the loop does not get through decides the run: a
    value that is not a dict raises [TypeError], a dict without [success]
    (or failing without [message]) raises [KeyError]; nothing is printed,
    also when earlier checks of the report are failing. *)
Theorem first_bad_entry_decides argv perform a body r1 checkName valueDict r2 :
  parse_args py_int argv = Ret a ->
  perform (build_url a) = CurlDone 200 body ->
  json_loads body = Some (PDict (r1 ++ (checkName, valueDict) :: r2)) ->
  report_ok r1 = true ->
  entry_ok valueDict = false ->
  run argv perform = Uncaught (entry_exn valueDict) [].
Proof.
  intros Hargs Hperform Hloads Hok Hbad.
  rewrite (run_fetched _ _ _ _ _ _ _ Hargs Hperform), Hloads. simpl.
  now rewrite (find_bad_app _ _ _ Hok), (find_bad_entry _ _ _ _ Hbad).
Qed.

(** X9: a report in which every entry is a dict whose [success] is there
    and not equal to [False] is OK, whether the entries have a [message]
    or not; the empty report is OK. *)
Theorem all_passing_is_ok argv perform a body report :
  parse_args py_int argv = Ret a ->
  perform (build_url a) = CurlDone 200 body ->
  json_loads body = Some (PDict report) ->
  forallb (fun it => passes (snd it)) report = true ->
  run argv perform = Exit 0 ["OK: All checks pass"].
Proof.
  intros Hargs Hperform Hloads Hpass.
  destruct (passing_report report Hpass) as [Hok Hnone].
  now rewrite (run_report _ _ _ _ _ _ _ _ Hargs Hperform Hloads Hok), Hnone.
Qed.

End More.

(** ** The properties at concrete inputs *)

Lemma exclude_list_collects_witness :
  parse_args int_8080 (GetoptOk [("-e", "db"); ("-S", ""); ("-e", "cache")])
  = Ret {| hostname := "localhost"; port := 80; ssl := true;
           url := "/health_checks";
           excludeList := ["stub"; "db"; "cache"] |}
  /\ excludeList {| hostname := "localhost"; port := 80; ssl := true;
                    url := "/health_checks";
                    excludeList := ["stub"; "db"; "cache"] |}
     = ["stub"; "db"; "cache"].
Proof.
  split; [reflexivity|].
  exact (exclude_list_collects int_8080
           [("-e", "db"); ("-S", ""); ("-e", "cache")] _ eq_refl).
Defined.

Lemma later_options_override_witness :
  hostname {| hostname := "b"; port := 8080; ssl := false;
              url := "/health_checks"; excludeList := ["stub"] |} = "b"
  /\ port {| hostname := "b"; port := 8080; ssl := false;
             url := "/health_checks"; excludeList := ["stub"] |} = 8080.
Proof.
  destruct (later_options_override int_8080
              [("-H", "a"); ("-p", "8080"); ("-H", "b")]
              {| hostname := "b"; port := 8080; ssl := false;
                 url := "/health_checks"; excludeList := ["stub"] |}
              eq_refl) as (Hh & Hp & _).
  split; [exact Hh | exact Hp].
Defined.

Lemma help_prints_usage_witness :
  main (fun _ => None) repr_any int_8080
       (GetoptOk [("-S", ""); ("-h", ""); ("-p", "x")]) (serve "{}")
  = Exit 3 usage_lines.
Proof.
  exact (proj2 (help_prints_usage (fun _ => None) repr_any int_8080
                  (serve "{}"))
               [("-S", "")] "" [("-p", "x")]
               {| hostname := "localhost"; port := 80; ssl := true;
                  url := "/health_checks"; excludeList := ["stub"] |}
               eq_refl).
Defined.

Lemma bad_port_is_uncaught_witness :
  main (fun _ => None) repr_any int_8080
       (GetoptOk [("-H", "web1"); ("-p", "http")]) (serve "{}")
  = Uncaught ValueError [].
Proof.
  exact (bad_port_is_uncaught (fun _ => None) repr_any int_8080 (serve "{}")
           [("-H", "web1")] "http" []
           {| hostname := "web1"; port := 80; ssl := false;
              url := "/health_checks"; excludeList := ["stub"] |}
           eq_refl eq_refl).
Defined.

Lemma polls_one_url_witness :
  main (loads_one example_body (PDict example_report)) repr_any int_8080
       (GetoptOk []) (serve example_body)
  = main (loads_one example_body (PDict example_report)) repr_any int_8080
         (GetoptOk [])
         (serve_at "http://localhost:80/health_checks" example_body).
Proof.
  apply polls_one_url. intros a [= <-]. reflexivity.
Defined.

Lemma bad_list_in_order_witness :
  exists badList,
    find_bad example_report [] = Ret badList
    /\ map name badList = ["cache"].
Proof.
  destruct (bad_list_in_order example_report eq_refl)
    as (badList & Hfind & Hnames & _).
  exists badList. split; [exact Hfind | exact Hnames].
Defined.

Lemma first_bad_entry_decides_witness :
  main (loads_one "{}"
          (PDict [("cache", PDict [("message", PStr "timeout");
                                   ("success", PBool false)]);
                  ("db", PStr "down")]))
       repr_any int_8080 (GetoptOk []) (serve "{}")
  = Uncaught TypeError [].
Proof.
  exact (first_bad_entry_decides
           (loads_one "{}"
              (PDict [("cache", PDict [("message", PStr "timeout");
                                       ("success", PBool false)]);
                      ("db", PStr "down")]))
           repr_any int_8080 (GetoptOk []) (serve "{}") return_dict0 "{}"
           [("cache", PDict [("message", PStr "timeout");
                             ("success", PBool false)])]
           "db" (PStr "down") [] eq_refl eq_refl eq_refl eq_refl eq_refl).
Defined.

Lemma all_passing_is_ok_witness :
  main (loads_one "{}" (PDict [("db", PDict [("success", PBool true)])]))
       repr_any int_8080 (GetoptOk []) (serve "{}")
  = Exit 0 ["OK: All checks pass"].
Proof.
  exact (all_passing_is_ok
           (loads_one "{}" (PDict [("db", PDict [("success", PBool true)])]))
           repr_any int_8080 (GetoptOk []) (serve "{}") return_dict0 "{}"
           [("db", PDict [("success", PBool true)])]
           eq_refl eq_refl eq_refl eq_refl).
Defined.

(** X17: the [-S] option changes the scheme of the URL only: without a
    [-p] option the port polled is 80, with [https] as with [http]. *)
Theorem ssl_keeps_port_80 py_int opts a :
  parse_args py_int (GetoptOk opts) = Ret a ->
  opt_args ["-p"; "--port"] opts = [] ->
  build_url a
  = (if existsb (fun o => str_in (fst o) ["-S"; "--ssl"]) opts
     then "https://" else "http://")
      ++ last (opt_args ["-H"; "--hostname"] opts) "localhost" ++ ":80"
      ++ last (opt_args ["-u"; "--url"] opts) "/health_checks".
Proof.
  intros Hargs Hno_port.
  apply parse_opts_fields in Hargs.
  destruct Hargs as (Hh & Hp & Hs & Hu & _ & _).
  rewrite Hno_port in Hp. simpl in *.
  unfold build_url. now rewrite Hh, Hp, Hs, Hu.
Qed.

Lemma ssl_keeps_port_80_witness :
  build_url {| hostname := "web1"; port := 80; ssl := true;
               url := "/health_checks"; excludeList := ["stub"] |}
  = "https://web1:80/health_checks".
Proof.
  exact (ssl_keeps_port_80 int_8080 [("-S", ""); ("-H", "web1")]
           {| hostname := "web1"; port := 80; ssl := true;
              url := "/health_checks"; excludeList := ["stub"] |}
           eq_refl eq_refl).
Defined.

End HealthPageMore.

(* ================================================================== *)
(** * More on sendgraph.py                                              *)
(* ================================================================== *)

Module SendGraphMore.
Import Py SendGraph StringFacts SendGraphProps.

(** Does the character occur in the string? *)
Fixpoint has_char (c : ascii) (s : string) : bool :=
  match s with
  | EmptyString => false
  | String c' rest => Ascii.eqb c' c || has_char c rest
  end.

(** The text of the first part of a message, when it is a text part. *)
Definition first_text (msg : message) : option string :=
  match parts msg with
  | MIMEText text _ :: _ => Some text
  | _ => None
  end.

(** The parts of a message after the first. *)
Definition other_parts (msg : message) : list mime_part := tl (parts msg).

(** The three calls of the [try] block of [send_graph_email], in order,
    each with the answer of the mail transport. *)
Definition mail_steps (w : world) (sender : option string)
    (receivers : list string) (msg : message)
  : list (event * option string) :=
  [ (SmtpConnect, smtp_connect w);
    (SmtpSend sender receivers msg, smtp_sendmail w sender receivers msg);
    (SmtpClose, smtp_close w) ].

(** A [try] block with the handler of [send_graph_email]: the calls are
    made up to the first that raises, and the handler logs its text. *)
Fixpoint until_failure (steps : list (event * option string)) : list event :=
  match steps with
  | [] => []
  | (call, None) :: rest => call :: until_failure rest
  | (call, Some out) :: _ => [call; LogError ("Sending mail failed: " ++ out)]
  end.

(** What [send_graph_email] does to the outside world for a message. *)
Definition session (w : world) (sender : option string)
    (receivers : list string) (msg : message) : list event :=
  until_failure (mail_steps w sender receivers msg).





(** ** [split] and [join] *)

Lemma split_not_nil sep s : split sep s <> [].
Proof.
  destruct s as [|c rest]; simpl; [discriminate|].
  destruct (Ascii.eqb c sep); [discriminate|].
  destruct (split sep rest); discriminate.
Qed.

Lemma join_split sep s :
  join (String sep EmptyString) (split sep s) = s.
Proof.
  unfold join. induction s as [|c rest IH]; [reflexivity|].
  simpl. destruct (Ascii.eqb c sep) eqn:Hc.
  - apply Ascii.eqb_eq in Hc. subst c.
    destruct (split sep rest) as [|piece pieces] eqn:Hsplit;
      [now elim (split_not_nil sep rest)|].
    simpl in *. now rewrite IH.
  - destruct (split sep rest) as [|piece pieces] eqn:Hsplit;
      [now elim (split_not_nil sep rest)|].
    simpl in *. destruct pieces; simpl in *; now rewrite <- IH.
Qed.

Lemma split_pieces_clean sep s :
  Forall (fun piece => has_char sep piece = false) (split sep s).
Proof.
  induction s as [|c rest IH]; simpl; [now repeat constructor|].
  destruct (Ascii.eqb c sep) eqn:Hc; [now constructor|].
  destruct (split sep rest) as [|piece pieces]; [now repeat constructor; simpl; rewrite Hc|].
  inversion IH as [|? ? Hpiece Hpieces]; subst.
  constructor; [simpl; now rewrite Hc | exact Hpieces].
Qed.

Section More.

Variable w : world.
Variable env : environ.
Variable options : Options.

(** ** The three ways [main] can go *)

Lemma get_graph_cases :
  (graphite_metric env = None /\ get_graph w env options = ([], Ok None))
  \/ exists metric,
       graphite_metric env = Some metric
       /\ (get_graph w env options
           = ([HttpGet (graph_url env options metric)], Raise RequestException)
           \/ exists content,
                get_graph w env options
                = ([HttpGet (graph_url env options metric)],
                   Ok (Some content))).
Proof.
  destruct (graphite_metric env) as [metric|] eqn:Hmetric.
  - right. exists metric. split; [reflexivity|].
    rewrite (get_graph_metric w env options metric Hmetric).
    destruct (requests_get w (graph_url env options metric)) as [|code content];
      [now left | right; now exists content].
  - left. split; [reflexivity|]. now apply get_graph_no_metric.
Qed.

Lemma main_graph_raises t e :
  get_graph w env options = (t, Raise e) ->
  main w env options = (t, Raise e).
Proof. intros Hgraph. unfold main. now rewrite Hgraph. Qed.

Lemma main_no_contact t graph :
  get_graph w env options = (t, Ok graph) ->
  contact_email env = None ->
  main w env options = (t, Raise AttributeError).
Proof.
  intros Hgraph Hcontact. unfold main, contact_list.
  rewrite Hgraph, Hcontact. simpl. now rewrite app_nil_r.
Qed.

Lemma main_sends t graph c :
  get_graph w env options = (t, Ok graph) ->
  contact_email env = Some c ->
  main w env options
  = ((t ++ session w (from_email options) (split " "%char c)
             (alert_message env options (split " "%char c) graph))%list,
     Ok tt).
Proof.
  intros Hgraph Hcontact.
  unfold main, contact_list, send_graph_email, session, mail_steps.
  rewrite Hgraph, Hcontact. unfold alert_message. simpl.
  destruct graph as [g|]; simpl;
    (destruct (smtp_connect w); simpl; [reflexivity|]);
    match goal with
    | |- context [smtp_sendmail w ?a ?b ?c] =>
        destruct (smtp_sendmail w a b c)
    end; simpl; [reflexivity| |reflexivity|];
    destruct (smtp_close w); reflexivity.
Qed.

(** Every case of [main], with its trace and its result written out. *)
Ltac main_cases :=
  destruct get_graph_cases
    as [[Hmetric Hgraph]|[metric [Hmetric [Hgraph|[content Hgraph]]]]];
  [ destruct (contact_email env) as [c|] eqn:Hcontact;
    [ rewrite (main_sends _ _ _ Hgraph Hcontact)
    | rewrite (main_no_contact _ _ Hgraph Hcontact) ]
  | rewrite (main_graph_raises _ _ Hgraph)
  | destruct (contact_email env) as [c|] eqn:Hcontact;
    [ rewrite (main_sends _ _ _ Hgraph Hcontact)
    | rewrite (main_no_contact _ _ Hgraph Hcontact) ] ];
  unfold sent, requested, trace, session, mail_steps; simpl;
  try (destruct (smtp_connect w) eqn:Hconnect; simpl);
  try match goal with
      | |- context [smtp_sendmail w ?a ?b ?c] =>
          destruct (smtp_sendmail w a b c); simpl
      end;
  try (destruct (smtp_close w); simpl).

(** ** Properties *)



(** X12: without [ICINGA_CONTACTEMAIL], [main] hands nothing to the mail
    transport: it makes the graph request as usual and then raises
    [AttributeError], unless the request itself raised. *)
Theorem no_contact_no_mail :
  contact_email env = None ->
  sent (main w env options) = []
  /\ requested (main w env options) = requested (get_graph w env options)
  /\ snd (main w env options)
     = match snd (get_graph w env options) with
       | Ok _ => Raise AttributeError
       | Raise e => Raise e
       end.
Proof.
  intros Hnone.
  destruct get_graph_cases
    as [[Hmetric Hgraph]|[metric [Hmetric [Hgraph|[content Hgraph]]]]].
  - now rewrite (main_no_contact _ _ Hgraph Hnone), Hgraph.
  - now rewrite (main_graph_raises _ _ Hgraph), Hgraph.
  - now rewrite (main_no_contact _ _ Hgraph Hnone), Hgraph.
Qed.


(** X14: in every message [main] hands to the mail transport the first
    part is the text, every other part is an image, and the text ends
    with the [cid:graph] reference exactly when an image is attached. *)
Theorem image_reference_matches_attachment msg :
  In msg (sent (main w env options)) ->
  exists text,
    first_text msg = Some text
    /\ Forall (fun p => is_image p = true) (other_parts msg)
    /\ ((exists pre, text = pre ++ img_tag) <-> other_parts msg <> []).
Proof.
  main_cases; intros Hin; simpl in Hin;
    try contradiction; destruct Hin as [<-|[]];
    unfold first_text, other_parts; simpl;
    eexists; (split; [reflexivity|]);
    (split; [repeat constructor|]);
    split; try discriminate; try (intros _; eexists; reflexivity);
    try (intros [pre Hpre]; now apply body_has_no_img_tag in Hpre);
    try (intros Hnil; now elim Hnil).
Qed.

(** X15: whenever [main] hands a message to the mail transport, the
    receivers are the pieces of [ICINGA_CONTACTEMAIL] between single
    spaces (joining them with a space gives the variable back; there is
    at least one; none contains a space), the [to] header is the
    receivers joined by [", "], and the envelope sender, the [from]
    header and the subject are the [-f] option and the subject line. *)
Theorem envelope_and_headers sender receivers msg :
  In (SmtpSend sender receivers msg) (trace (main w env options)) ->
  contact_email env = Some (join " " receivers)
  /\ receivers <> []
  /\ Forall (fun r => has_char " "%char r = false) receivers
  /\ msg_to msg = join ", " receivers
  /\ sender = from_email options
  /\ msg_from msg = sender
  /\ msg_subject msg = subject_line env.
Proof.
  assert (Hfacts : forall c graph,
             contact_email env = Some c ->
             SmtpSend (from_email options) (split " "%char c)
               (alert_message env options (split " "%char c) graph)
             = SmtpSend sender receivers msg ->
             contact_email env = Some (join " " receivers)
             /\ receivers <> []
             /\ Forall (fun r => has_char " "%char r = false) receivers
             /\ msg_to msg = join ", " receivers
             /\ sender = from_email options
             /\ msg_from msg = sender
             /\ msg_subject msg = subject_line env).
  { intros c graph Hc [= <- <- <-].
    rewrite (join_split " "%char c).
    repeat split; auto using split_not_nil, split_pieces_clean. }
  destruct get_graph_cases
    as [[Hmetric Hgraph]|[metric [Hmetric [Hgraph|[content Hgraph]]]]];
    [ destruct (contact_email env) as [c|] eqn:Hcontact;
      [ rewrite (main_sends _ _ _ Hgraph Hcontact)
      | rewrite (main_no_contact _ _ Hgraph Hcontact) ]
    | rewrite (main_graph_raises _ _ Hgraph)
    | destruct (contact_email env) as [c|] eqn:Hcontact;
      [ rewrite (main_sends _ _ _ Hgraph Hcontact)
      | rewrite (main_no_contact _ _ Hgraph Hcontact) ] ];
    unfold trace, session, mail_steps; simpl;
    try (destruct (smtp_connect w); simpl);
    try match goal with
        | |- context [smtp_sendmail w ?a ?b ?c] =>
            destruct (smtp_sendmail w a b c); simpl
        end;
    try (destruct (smtp_close w); simpl);
    intros Hin;
    repeat match goal with
           | H : _ \/ _ |- _ => destruct H
           | H : False |- _ => contradiction
           end;
    try discriminate;
    match goal with
    | H : SmtpSend _ _ _ = SmtpSend _ _ _ |- _ => exact (Hfacts _ _ eq_refl H)
    end.
Qed.

(** X16: when the [-u] option is not given, [get_graph] still requests
    the graph, from a URL that starts with [None/render?]. *)
Theorem missing_base_url_requests_None metric :
  base_url options = None ->
  graphite_metric env = Some metric ->
  exists rest,
    requested (get_graph w env options)
    = ["None/render?lineMode=connected&from=-" ++ rest].
Proof.
  intros Hbase Hmetric.
  rewrite (get_graph_metric w env options metric Hmetric).
  rewrite graph_url_shape. unfold plain_url. rewrite Hbase.
  eexists. unfold requested, trace. simpl. reflexivity.
Qed.

End More.

(** ** The properties at concrete inputs *)


(** An alert context without contact address. *)
Definition env_no_contact : environ :=
  {| graphite_metric := Some "m";
     warn_threshold := None;
     crit_threshold := None;
     contact_email := None;
     notification_type := Some "PROBLEM";
     service_state := Some "WARNING";
     host_alias := None;
     host_address := None;
     service_description := None;
     date_time := None;
     action_url := None;
     service_output := None;
     service_duration := None |}.

Lemma no_contact_no_mail_witness :
  sent (main (world_with (GetResponse 200 "PNG")) env_no_contact
             example_options) = []
  /\ requested (main (world_with (GetResponse 200 "PNG")) env_no_contact
                     example_options)
     = ["http://graphite/render?lineMode=connected&from=-6hours&width=800&target=m&bgcolor=FFFFFF&fgcolor=000000"]
  /\ snd (main (world_with (GetResponse 200 "PNG")) env_no_contact
               example_options) = Raise AttributeError.
Proof.
  exact (no_contact_no_mail (world_with (GetResponse 200 "PNG"))
           env_no_contact example_options eq_refl).
Defined.

Lemma image_reference_matches_attachment_witness :
  exists text,
    first_text (alert_message
                  (example_env (Some "maxSeries(stats.gauges.count.*)"))
                  example_options ["ops@example.com"; "oncall@example.com"]
                  (Some "PNG")) = Some text
    /\ ((exists pre, text = pre ++ img_tag)
        <-> other_parts (alert_message
                           (example_env (Some "maxSeries(stats.gauges.count.*)"))
                           example_options
                           ["ops@example.com"; "oncall@example.com"]
                           (Some "PNG")) <> []).
Proof.
  destruct (image_reference_matches_attachment
              (world_with (GetResponse 200 "PNG"))
              (example_env (Some "maxSeries(stats.gauges.count.*)"))
              example_options
              (alert_message
                 (example_env (Some "maxSeries(stats.gauges.count.*)"))
                 example_options ["ops@example.com"; "oncall@example.com"]
                 (Some "PNG"))
              (or_introl eq_refl)) as (text & Htext & _ & Hiff).
  exists text. split; [exact Htext | exact Hiff].
Defined.

Lemma envelope_and_headers_witness :
  contact_email (example_env None)
  = Some (join " " ["ops@example.com"; "oncall@example.com"])
  /\ msg_to (alert_message (example_env None) example_options
               ["ops@example.com"; "oncall@example.com"] None)
     = join ", " ["ops@example.com"; "oncall@example.com"].
Proof.
  destruct (envelope_and_headers (world_with GetRaises) (example_env None)
              example_options (Some "icinga@example.com")
              ["ops@example.com"; "oncall@example.com"]
              (alert_message (example_env None) example_options
                 ["ops@example.com"; "oncall@example.com"] None)
              (or_intror (or_introl eq_refl)))
    as (Hcontact & _ & _ & Hto & _).
  split; [exact Hcontact | exact Hto].
Defined.

(** The options of a command line without flags. *)
Lemma missing_base_url_requests_None_witness :
  exists rest,
    requested (get_graph (world_with GetRaises) env_no_contact
                 default_options)
    = ["None/render?lineMode=connected&from=-" ++ rest].
Proof.
  exact (missing_base_url_requests_None (world_with GetRaises) env_no_contact
           default_options "m" eq_refl eq_refl).
Defined.

End SendGraphMore.
